(** * lib/errors.js: DOMException and ParseError

    A shallow embedding of [lib/errors.js] (the error types of xmldom) and the
    properties of its specification.

    The file has three parts:
    - the fragment of the JavaScript run time the module relies on: values,
      [typeof], truthiness, strict equality, arrays read by index, ordinary
      objects with a prototype chain, strict-mode assignment;
    - the module itself, definition by definition, under the source's names;
    - the properties. *)

From Stdlib Require Import ZArith List String Bool Lia.
From Stdlib Require Import Floats.PrimFloat Numbers.Cyclic.Int63.Uint63.
From Stdlib Require Floats.SpecFloat Floats.FloatOps Floats.FloatAxioms.
Import ListNotations.

Open Scope string_scope.
Open Scope Z_scope.

(* ================================================================= *)
(** ** JavaScript values *)

(** Function objects the module mentions: the built-in [Object] and [Error],
    the module's two constructors, and any other native function (a method of
    a built-in prototype), known by its name only. *)
Inductive Fn :=
| FObject
| FError
| FDOMException
| FParseError
| FNative (name : string).

(** [F.name] for the functions above. *)
Definition Fn_name (f : Fn) : string :=
  match f with
  | FObject => "Object"
  | FError => "Error"
  | FDOMException => "DOMException"
  | FParseError => "ParseError"
  | FNative name => name
  end.

Definition Fn_eqb (f g : Fn) : bool :=
  match f, g with
  | FObject, FObject => true
  | FError, FError => true
  | FDOMException, FDOMException => true
  | FParseError, FParseError => true
  | FNative a, FNative b => String.eqb a b
  | _, _ => false
  end.

(** A JavaScript value. Numbers are IEEE 754 binary64, the kernel's [float].
    Strings are sequences of characters; the module only measures them and
    compares a suffix with an ASCII word. Objects that reach the module as
    arguments (an [Error], a locator) are opaque: the module never looks inside
    them, so a reference stands for them. *)
Inductive JsValue :=
| JUndefined
| JNull
| JBool (b : bool)
| JNumber (x : float)
| JString (s : string)
| JBigInt (z : Z)
| JSymbol (id : nat)
| JFunction (f : Fn)
| JObject (ref : nat).

(** The number value of an integer (exact for the small integers used here:
    array indices and codes). *)
Definition Number_of_Z (z : Z) : float :=
  match z with
  | Z0 => PrimFloat.zero
  | Zpos _ => PrimFloat.of_uint63 (Uint63.of_Z z)
  | Zneg _ => PrimFloat.opp (PrimFloat.of_uint63 (Uint63.of_Z (- z)))
  end.

(** [typeof v] *)
Definition typeof (v : JsValue) : string :=
  match v with
  | JUndefined => "undefined"
  | JNull => "object"
  | JBool _ => "boolean"
  | JNumber _ => "number"
  | JString _ => "string"
  | JBigInt _ => "bigint"
  | JSymbol _ => "symbol"
  | JFunction _ => "function"
  | JObject _ => "object"
  end.

(** ToBoolean: the falsy values are [undefined], [null], [false], [+0], [-0],
    [NaN], [0n] and the empty string. *)
Definition ToBoolean (v : JsValue) : bool :=
  match v with
  | JUndefined | JNull => false
  | JBool b => b
  | JNumber x => negb (PrimFloat.eqb x PrimFloat.zero) && PrimFloat.eqb x x
  | JString s => negb (String.eqb s "")
  | JBigInt z => negb (Z.eqb z 0)
  | JSymbol _ | JFunction _ | JObject _ => true
  end.

(** [a || b] *)
Definition or_else (a b : JsValue) : JsValue :=
  if ToBoolean a then a else b.

(** [a === b] *)
Definition strict_equals (a b : JsValue) : bool :=
  match a, b with
  | JUndefined, JUndefined => true
  | JNull, JNull => true
  | JBool x, JBool y => Bool.eqb x y
  | JNumber x, JNumber y => PrimFloat.eqb x y
  | JString x, JString y => String.eqb x y
  | JBigInt x, JBigInt y => Z.eqb x y
  | JSymbol x, JSymbol y => Nat.eqb x y
  | JFunction f, JFunction g => Fn_eqb f g
  | JObject r, JObject r' => Nat.eqb r r'
  | _, _ => false
  end.

(** [s.substring(start)]: [start] is clamped to [0 .. s.length]. *)
Definition String_substring (s : string) (start : Z) : string :=
  let len := Z.of_nat (String.length s) in
  let from := Z.min (Z.max start 0) len in
  String.substring (Z.to_nat from) (Z.to_nat (len - from)) s.

(* ----------------------------------------------------------------- *)
(** *** Arrays *)

(** An array without holes is the list of its elements. [arr[key]] for a
    number [key]: the property key is [String(key)], and element [i] lives
    under [String(i)]; the two strings agree exactly when [key == i] as
    numbers (so [-0] reads element 0, and a fraction or [NaN] reads nothing).
    The module only indexes with numbers. *)
Fixpoint Array_get_from (i : Z) (arr : list JsValue) (x : float) : JsValue :=
  match arr with
  | [] => JUndefined
  | v :: rest =>
      if PrimFloat.eqb (Number_of_Z i) x then v
      else Array_get_from (i + 1) rest x
  end.

Definition Array_get (arr : list JsValue) (key : JsValue) : JsValue :=
  match key with
  | JNumber x => Array_get_from 0 arr x
  | _ => JUndefined
  end.

(** [arr.indexOf(v)]: the first index whose element is strictly equal to [v],
    or -1. *)
Fixpoint Array_indexOf_from (i : Z) (arr : list JsValue) (v : JsValue) : Z :=
  match arr with
  | [] => -1
  | e :: rest =>
      if strict_equals e v then i else Array_indexOf_from (i + 1) rest v
  end.

Definition Array_indexOf (arr : list JsValue) (v : JsValue) : Z :=
  Array_indexOf_from 0 arr v.

(* ----------------------------------------------------------------- *)
(** *** Object literals used as tables *)

Section Table.
Context {V : Type}.

(** An object literal with string keys, in the order the keys are written. *)
Definition Table := list (string * V).

Fixpoint assoc (k : string) (t : Table) : option V :=
  match t with
  | [] => None
  | (k', v) :: rest => if String.eqb k' k then Some v else assoc k rest
  end.

(** [Object.keys(t)]: the keys in insertion order. *)
Definition Object_keys (t : Table) : list string := map fst t.
End Table.
Arguments Table V : clear implicits.

(* ----------------------------------------------------------------- *)
(** *** Completions *)

(** What a strict-mode assignment throws when it cannot write. *)
Inductive Thrown :=
| TypeError (property : string).

(** The result of running code that may throw. *)
Inductive Completion (A : Type) :=
| Normal (a : A)
| Throw (e : Thrown).
Arguments Normal {A} a.
Arguments Throw {A} e.

Definition bind {A B : Type} (c : Completion A) (k : A -> Completion B)
  : Completion B :=
  match c with
  | Normal a => k a
  | Throw e => Throw e
  end.

Notation "x <- c ;; k" := (bind c (fun x => k))
  (at level 61, c at next level, right associativity).

(* ----------------------------------------------------------------- *)
(** *** Ordinary objects *)

(** The one getter function the module defines (on [DOMException.prototype]). *)
Inductive Getter :=
| GetCode.

(** A property of an object: a data property with its value and attributes,
    or an accessor property with its getter (the module defines no setter). *)
Inductive Property :=
| Data (value : JsValue) (writable enumerable : bool)
| Accessor (get : option Getter) (enumerable : bool).

(** An object: its own properties in creation order and its prototype.
    [prototype_of] names the function whose [prototype] property the object
    is, when it is one; this is the identity [instanceof] compares. *)
#[local] Set Warnings "-register-all".
Inductive Obj :=
| mkObj (prototype_of : option Fn) (own : Table Property) (proto : option Obj).
#[local] Set Warnings "+register-all".

Definition own_properties (o : Obj) : Table Property :=
  match o with mkObj _ own _ => own end.

Definition GetPrototypeOf (o : Obj) : option Obj :=
  match o with mkObj _ _ proto => proto end.

(** The property found under [k] on [o] or, failing that, along its prototype
    chain. *)
Fixpoint find_property (o : Obj) (k : string) : option Property :=
  match o with
  | mkObj _ own proto =>
      match assoc k own with
      | Some p => Some p
      | None =>
          match proto with
          | Some parent => find_property parent k
          | None => None
          end
      end
  end.


(** [Object.create(proto, properties)] *)
Definition Object_create (proto : Obj) (properties : Table Property) : Obj :=
  mkObj None properties (Some proto).

(** Adds or replaces an own property, keeping the creation order. *)
Fixpoint define_own (own : Table Property) (k : string) (p : Property)
  : Table Property :=
  match own with
  | [] => [(k, p)]
  | (k', p') :: rest =>
      if String.eqb k' k then (k', p) :: rest
      else (k', p') :: define_own rest k p
  end.

(** [Object.defineProperties(o, properties)] *)
Definition Object_defineProperties (o : Obj) (properties : Table Property)
  : Obj :=
  match o with
  | mkObj tag own proto =>
      mkObj tag
        (fold_left (fun acc kp => define_own acc (fst kp) (snd kp))
           properties own)
        proto
  end.

(** [this.k = v] in strict mode. The property found along the chain decides:
    a non-writable data property or an accessor without setter makes the
    assignment throw; otherwise the value is written to an own data property
    of [this], created writable and enumerable if it is new. *)
Definition assign (this : Obj) (k : string) (v : JsValue) : Completion Obj :=
  match this with
  | mkObj tag own proto =>
      match find_property this k with
      | Some (Data _ false _) => Throw (TypeError k)
      | Some (Accessor _ _) => Throw (TypeError k)
      | Some (Data _ true _) | None =>
          match assoc k own with
          | Some (Data _ w e) =>
              Normal (mkObj tag (define_own own k (Data v w e)) proto)
          | _ =>
              Normal (mkObj tag (define_own own k (Data v true true)) proto)
          end
      end
  end.

(** [o instanceof F]: [F.prototype] occurs on the prototype chain of [o]. *)
Fixpoint is_or_inherits (o : Obj) (F : Fn) : bool :=
  match o with
  | mkObj tag _ proto =>
      match tag with
      | Some G => Fn_eqb G F
      | None => false
      end
      || match proto with
         | Some parent => is_or_inherits parent F
         | None => false
         end
  end.

Definition instanceof (o : Obj) (F : Fn) : bool :=
  match GetPrototypeOf o with
  | Some parent => is_or_inherits parent F
  | None => false
  end.

(** Reading a data property: [o.k] when [k] resolves to a data property or to
    nothing. *)
Definition GetData (o : Obj) (k : string) : JsValue :=
  match find_property o k with
  | Some (Data v _ _) => v
  | _ => JUndefined
  end.

(* ----------------------------------------------------------------- *)
(** *** The built-in prototypes *)

Definition method (name : string) : string * Property :=
  (name, Data (JFunction (FNative name)) true false).

(** [Object.prototype] with the properties the language standard gives it. *)
Definition Object_prototype : Obj :=
  mkObj (Some FObject)
    [ ("constructor", Data (JFunction FObject) true false);
      method "hasOwnProperty"; method "isPrototypeOf";
      method "propertyIsEnumerable"; method "toLocaleString";
      method "toString"; method "valueOf";
      ("__proto__", Accessor None false) ]
    None.

(** [Error.prototype] *)
Definition Error_prototype : Obj :=
  mkObj (Some FError)
    [ ("constructor", Data (JFunction FError) true false);
      ("message", Data (JString "") true false);
      ("name", Data (JString "Error") true false);
      method "toString" ]
    (Some Object_prototype).

(** The host: [Error.captureStackTrace] exists on some engines only. Where it
    exists, [Error.captureStackTrace(o, F)] defines the own property [stack]
    of [o]; the value it computes is the host's business. *)
Record Host := {
  Error_captureStackTrace : option (Fn -> JsValue)
}.

Definition captureStackTrace (f : Fn -> JsValue) (o : Obj) (F : Fn) : Obj :=
  match o with
  | mkObj tag own proto =>
      mkObj tag (define_own own "stack" (Data (f F) true false)) proto
  end.

(* ================================================================= *)
(** ** lib/errors.js *)

(** [extendError(constructor, writableName)]: the object assigned to
    [constructor.prototype]. It inherits from [Error.prototype] and has two
    own properties, [constructor] (no attribute given, so none set) and
    [name], enumerable and writable as [writableName] says. *)
Definition extendError (constructor : Fn) (writableName : JsValue) : Obj :=
  match
    Object_create Error_prototype
      [ ("constructor", Data (JFunction constructor) false false);
        ("name",
         Data (JString (Fn_name constructor)) (ToBoolean writableName) true) ]
  with
  | mkObj _ own proto => mkObj (Some constructor) own proto
  end.

(** Modelled from the spec: [conventions.freeze] lives in [lib/conventions.js],
    which is not part of the sources at hand. The specification calls the
    registry an immutable ordered list: freezing keeps keys, values and their
    order. *)
Definition freeze {V : Type} (t : Table V) : Table V := t.

Definition DOMExceptionName : Table string :=
  freeze
    [ ("Error", "Error");
      ("IndexSizeError", "IndexSizeError");
      ("DomstringSizeError", "DomstringSizeError");
      ("HierarchyRequestError", "HierarchyRequestError");
      ("WrongDocumentError", "WrongDocumentError");
      ("InvalidCharacterError", "InvalidCharacterError");
      ("NoDataAllowedError", "NoDataAllowedError");
      ("NoModificationAllowedError", "NoModificationAllowedError");
      ("NotFoundError", "NotFoundError");
      ("NotSupportedError", "NotSupportedError");
      ("InUseAttributeError", "InUseAttributeError");
      ("InvalidStateError", "InvalidStateError");
      ("SyntaxError", "SyntaxError");
      ("InvalidModificationError", "InvalidModificationError");
      ("NamespaceError", "NamespaceError");
      ("InvalidAccessError", "InvalidAccessError");
      ("ValidationError", "ValidationError");
      ("TypeMismatchError", "TypeMismatchError");
      ("SecurityError", "SecurityError");
      ("NetworkError", "NetworkError");
      ("AbortError", "AbortError");
      ("URLMismatchError", "URLMismatchError");
      ("QuotaExceededError", "QuotaExceededError");
      ("TimeoutError", "TimeoutError");
      ("InvalidNodeTypeError", "InvalidNodeTypeError");
      ("DataCloneError", "DataCloneError");
      ("EncodingError", "EncodingError");
      ("NotReadableError", "NotReadableError");
      ("UnknownError", "UnknownError");
      ("ConstraintError", "ConstraintError");
      ("DataError", "DataError");
      ("TransactionInactiveError", "TransactionInactiveError");
      ("ReadOnlyError", "ReadOnlyError");
      ("VersionError", "VersionError");
      ("OperationError", "OperationError");
      ("NotAllowedError", "NotAllowedError");
      ("OptOutError", "OptOutError") ].

(** [DOMExceptionName.Error] *)
Definition DOMExceptionName_Error : string :=
  match assoc "Error" DOMExceptionName with
  | Some v => v
  | None => ""
  end.

(** [var DOMExceptionNames = Object.keys(DOMExceptionName)]: an array of
    strings. *)
Definition DOMExceptionNames : list JsValue :=
  map JString (Object_keys DOMExceptionName).

(** [typeof value === 'number' && value >= 1 && value <= 25]: the comparisons
    are reached for numbers only, where they are the IEEE ones. *)
Definition isValidDomExceptionCode (value : JsValue) : bool :=
  String.eqb (typeof value) "number"
  && match value with
     | JNumber x => PrimFloat.leb 1 x && PrimFloat.leb x 25
     | _ => false
     end.

(** [typeof value === 'string' &&
     value.substring(value.length - DOMExceptionName.Error.length)
       === DOMExceptionName.Error] *)
Definition endsWithError (value : JsValue) : bool :=
  String.eqb (typeof value) "string"
  && match value with
     | JString s =>
         String.eqb
           (String_substring s
              (Z.of_nat (String.length s)
               - Z.of_nat (String.length DOMExceptionName_Error)))
           DOMExceptionName_Error
     | _ => false
     end.

(** [DOMException.prototype] after [extendError(DOMException, true)] and
    [Object.defineProperties(DOMException.prototype, { code: ... })]. *)
Definition DOMException_prototype : Obj :=
  Object_defineProperties
    (extendError FDOMException (JBool true))
    [ ("code", Accessor (Some GetCode) true) ].

(** [ParseError.prototype] after [extendError(ParseError)]. *)
Definition ParseError_prototype : Obj :=
  extendError FParseError JUndefined.

(** [F.prototype] *)
Definition prototype (F : Fn) : option Obj :=
  match F with
  | FObject => Some Object_prototype
  | FError => Some Error_prototype
  | FDOMException => Some DOMException_prototype
  | FParseError => Some ParseError_prototype
  | FNative _ => None
  end.

(** The function an object is the [prototype] of. *)
Definition prototype_of (o : Obj) : option Fn :=
  match o with mkObj tag _ _ => tag end.

(** The body of the getter of [code]:
    [var code = DOMExceptionNames.indexOf(this.name);
     if (isValidDomExceptionCode(code)) return code;
     return 0;]
    [this.name] is a data read: no object of this module has an accessor
    called [name] (see [name_is_data]). *)
Definition code_getter (this : Obj) : JsValue :=
  let code :=
    JNumber (Number_of_Z (Array_indexOf DOMExceptionNames (GetData this "name")))
  in
  if isValidDomExceptionCode code then code else JNumber 0.

Definition call_getter (g : Getter) (this : Obj) : JsValue :=
  match g with
  | GetCode => code_getter this
  end.

(** [o.k]: the value of a data property, the result of the getter of an
    accessor property, [undefined] when there is no such property. *)
Definition Get (o : Obj) (k : string) : JsValue :=
  match find_property o k with
  | Some (Data v _ _) => v
  | Some (Accessor (Some g) _) => call_getter g o
  | Some (Accessor None _) => JUndefined
  | None => JUndefined
  end.

Section WithHost.
Variable host : Host.

(** [if (Error.captureStackTrace) Error.captureStackTrace(this, F);] *)
Definition capture (this : Obj) (F : Fn) : Obj :=
  match Error_captureStackTrace host with
  | Some f => captureStackTrace f this F
  | None => this
  end.

(** The body of [function DOMException(messageOrCode, nameOrMessage)]. *)
Definition DOMException (this : Obj) (messageOrCode nameOrMessage : JsValue)
  : Completion Obj :=
  this <-
    (if isValidDomExceptionCode messageOrCode then
       this <- assign this "name" (Array_get DOMExceptionNames messageOrCode) ;;
       assign this "message" (or_else nameOrMessage (JString ""))
     else
       this <- assign this "message" messageOrCode ;;
       assign this "name"
         (if endsWithError nameOrMessage then nameOrMessage
          else JString DOMExceptionName_Error)) ;;
  Normal (capture this FDOMException).

(** [new DOMException(messageOrCode, nameOrMessage)]; an omitted argument is
    [undefined]. *)
Definition new_DOMException (messageOrCode nameOrMessage : JsValue)
  : Completion Obj :=
  DOMException (Object_create DOMException_prototype []) messageOrCode
    nameOrMessage.

(** The body of [function ParseError(message, locator)]. *)
Definition ParseError (this : Obj) (message locator : JsValue)
  : Completion Obj :=
  this <- assign this "message" message ;;
  this <- assign this "locator" locator ;;
  Normal (capture this FParseError).

(** [new ParseError(message, locator)] *)
Definition new_ParseError (message locator : JsValue) : Completion Obj :=
  ParseError (Object_create ParseError_prototype []) message locator.
End WithHost.

Definition ExceptionCode : Table JsValue :=
  [ ("INDEX_SIZE_ERR", JNumber 1);
    ("DOMSTRING_SIZE_ERR", JNumber 2);
    ("HIERARCHY_REQUEST_ERR", JNumber 3);
    ("WRONG_DOCUMENT_ERR", JNumber 4);
    ("INVALID_CHARACTER_ERR", JNumber 5);
    ("NO_DATA_ALLOWED_ERR", JNumber 6);
    ("NO_MODIFICATION_ALLOWED_ERR", JNumber 7);
    ("NOT_FOUND_ERR", JNumber 8);
    ("NOT_SUPPORTED_ERR", JNumber 9);
    ("INUSE_ATTRIBUTE_ERR", JNumber 10);
    ("INVALID_STATE_ERR", JNumber 11);
    ("SYNTAX_ERR", JNumber 12);
    ("INVALID_MODIFICATION_ERR", JNumber 13);
    ("NAMESPACE_ERR", JNumber 14);
    ("INVALID_ACCESS_ERR", JNumber 15);
    ("VALIDATION_ERR", JNumber 16);
    ("TYPE_MISMATCH_ERR", JNumber 17);
    ("SECURITY_ERR", JNumber 18);
    ("NETWORK_ERR", JNumber 19);
    ("ABORT_ERR", JNumber 20);
    ("URL_MISMATCH_ERR", JNumber 21);
    ("QUOTA_EXCEEDED_ERR", JNumber 22);
    ("TIMEOUT_ERR", JNumber 23);
    ("INVALID_NODE_TYPE_ERR", JNumber 24);
    ("DATA_CLONE_ERR", JNumber 25) ].

(** [T.k] for a table of values. *)
Definition member (t : Table JsValue) (k : string) : JsValue :=
  match assoc k t with
  | Some v => v
  | None => JUndefined
  end.

(** The static properties [DOMException.X = ExceptionCode.X], in the order of
    the assignments. *)
Definition DOMException_statics : Table JsValue :=
  map (fun k => (k, member ExceptionCode k))
    [ "INDEX_SIZE_ERR"; "DOMSTRING_SIZE_ERR"; "HIERARCHY_REQUEST_ERR";
      "WRONG_DOCUMENT_ERR"; "INVALID_CHARACTER_ERR"; "NO_DATA_ALLOWED_ERR";
      "NO_MODIFICATION_ALLOWED_ERR"; "NOT_FOUND_ERR"; "NOT_SUPPORTED_ERR";
      "INUSE_ATTRIBUTE_ERR"; "INVALID_STATE_ERR"; "SYNTAX_ERR";
      "INVALID_MODIFICATION_ERR"; "NAMESPACE_ERR"; "INVALID_ACCESS_ERR";
      "VALIDATION_ERR"; "TYPE_MISMATCH_ERR"; "SECURITY_ERR"; "NETWORK_ERR";
      "ABORT_ERR"; "URL_MISMATCH_ERR"; "QUOTA_EXCEEDED_ERR"; "TIMEOUT_ERR";
      "INVALID_NODE_TYPE_ERR"; "DATA_CLONE_ERR" ].

(* ================================================================= *)
(** ** The vocabulary of the specification *)

(** The KindRegistry: the ordered names. *)
Definition KindRegistry : list string := Object_keys DOMExceptionName.

(** [KindRegistry.nameAt(position)] *)
Definition nameAt (position : Z) : option string :=
  if position <? 0 then None else nth_error KindRegistry (Z.to_nat position).

(** The first position at or after [i] where [name] stands in [names]. *)
Fixpoint position_from (i : Z) (names : list string) (name : string)
  : option Z :=
  match names with
  | [] => None
  | n :: rest =>
      if String.eqb n name then Some i else position_from (i + 1) rest name
  end.

(** [KindRegistry.positionOf(name)]: the position of [name] when it is one of
    1 .. 25, and the sentinel 0 when the name is absent or stands elsewhere. *)
Definition positionOf (name : string) : Z :=
  match position_from 0 KindRegistry name with
  | Some i => if (1 <=? i) && (i <=? 25) then i else 0
  | None => 0
  end.

(** The position of a value read from [name]: only a string can be a name of
    the registry. *)
Definition positionOf_value (name : JsValue) : Z :=
  match name with
  | JString k => positionOf k
  | _ => 0
  end.

(** A number in the closed range 1 .. 25. *)
Definition in_legacy_range (v : JsValue) : Prop :=
  exists x, v = JNumber x /\ PrimFloat.leb 1 x = true /\ PrimFloat.leb x 25 = true.

(** [s] ends in [suffix]. *)
Definition ends_with (suffix s : string) : Prop :=
  exists prefix, s = prefix ++ suffix.

(** A string ending in ["Error"]. *)
Definition error_suffixed (v : JsValue) : Prop :=
  exists s, v = JString s /\ ends_with "Error" s.

(** One of the registry's names. *)
Definition registry_name (v : JsValue) : Prop :=
  exists k, In k KindRegistry /\ v = JString k.

(** A value that is a string. *)
Definition is_string (v : JsValue) : Prop :=
  exists s, v = JString s.

(** What the getter of [code] returns on an object whose [name] reads as
    [name]. *)
Definition code_of_name (name : JsValue) : JsValue :=
  let code := JNumber (Number_of_Z (Array_indexOf DOMExceptionNames name)) in
  if isValidDomExceptionCode code then code else JNumber 0.

(** The names standing at the positions, one pair for each position. *)
Definition positions : list (Z * string) :=
  combine (map Z.of_nat (seq 0 (List.length KindRegistry))) KindRegistry.

(** The second argument names no kind: it is omitted, or a string that does
    not end in ["Error"], or no string at all. *)
Definition names_no_kind (nameOrMessage : JsValue) : Prop :=
  nameOrMessage = JUndefined
  \/ (exists k, nameOrMessage = JString k /\ ~ ends_with "Error" k)
  \/ ~ is_string nameOrMessage.

(** The kind each legacy constant stands for: the constant's words in
    capitalised form with [Error] for [_ERR], as the error names table of the
    DOM standard pairs them (and as the source's comments on the deprecated
    names say: "just to match the related static code"). *)
Definition legacy_kind : Table string :=
  [ ("INDEX_SIZE_ERR", "IndexSizeError");
    ("DOMSTRING_SIZE_ERR", "DomstringSizeError");
    ("HIERARCHY_REQUEST_ERR", "HierarchyRequestError");
    ("WRONG_DOCUMENT_ERR", "WrongDocumentError");
    ("INVALID_CHARACTER_ERR", "InvalidCharacterError");
    ("NO_DATA_ALLOWED_ERR", "NoDataAllowedError");
    ("NO_MODIFICATION_ALLOWED_ERR", "NoModificationAllowedError");
    ("NOT_FOUND_ERR", "NotFoundError");
    ("NOT_SUPPORTED_ERR", "NotSupportedError");
    ("INUSE_ATTRIBUTE_ERR", "InUseAttributeError");
    ("INVALID_STATE_ERR", "InvalidStateError");
    ("SYNTAX_ERR", "SyntaxError");
    ("INVALID_MODIFICATION_ERR", "InvalidModificationError");
    ("NAMESPACE_ERR", "NamespaceError");
    ("INVALID_ACCESS_ERR", "InvalidAccessError");
    ("VALIDATION_ERR", "ValidationError");
    ("TYPE_MISMATCH_ERR", "TypeMismatchError");
    ("SECURITY_ERR", "SecurityError");
    ("NETWORK_ERR", "NetworkError");
    ("ABORT_ERR", "AbortError");
    ("URL_MISMATCH_ERR", "URLMismatchError");
    ("QUOTA_EXCEEDED_ERR", "QuotaExceededError");
    ("TIMEOUT_ERR", "TimeoutError");
    ("INVALID_NODE_TYPE_ERR", "InvalidNodeTypeError");
    ("DATA_CLONE_ERR", "DataCloneError") ].



(** Two hosts, one without and one with [Error.captureStackTrace]. *)
Definition plain_host : Host := {| Error_captureStackTrace := None |}.
Definition tracing_host : Host :=
  {| Error_captureStackTrace := Some (fun F => JString ("at new " ++ Fn_name F)) |}.

(* ================================================================= *)
(** ** Lemmas on the run time *)

Lemma or_else_string (m : string) :
  or_else (JString m) (JString "") = JString m.
Proof.
  unfold or_else; simpl.
  destruct (String.eqb m "") eqn:E; simpl; [|reflexivity].
  apply String.eqb_eq in E. now subst.
Qed.

Lemma JNumber_neq (x y : float) :
  PrimFloat.eqb x y = false -> PrimFloat.eqb x x = true -> JNumber x <> JNumber y.
Proof.
  intros Hxy Hxx E. injection E as E. rewrite <- E in Hxy. congruence.
Qed.

(** *** Suffixes *)

Lemma substring_all (s : string) : String.substring 0 (String.length s) s = s.
Proof. induction s as [|c s IH]; simpl; [reflexivity | now rewrite IH]. Qed.

Lemma substring_skip (p t : string) (m : nat) :
  String.substring (String.length p) m (p ++ t) = String.substring 0 m t.
Proof. induction p as [|c p IH]; simpl; [reflexivity | exact IH]. Qed.

Lemma substring_split (s : string) :
  forall n, (n <= String.length s)%nat ->
  s = String.substring 0 n s ++ String.substring n (String.length s - n) s.
Proof.
  induction s as [|c s IH]; intros [|n] Hn; simpl in *.
  - reflexivity.
  - lia.
  - now rewrite substring_all.
  - f_equal. apply IH. lia.
Qed.

Lemma length_app (p t : string) :
  String.length (p ++ t) = (String.length p + String.length t)%nat.
Proof. induction p as [|c p IH]; simpl; [reflexivity | now rewrite IH]. Qed.

(** [s.substring(start)] is a suffix of [s]. *)
Lemma String_substring_suffix (s : string) (start : Z) :
  ends_with (String_substring s start) s.
Proof.
  unfold String_substring, ends_with.
  set (len := Z.of_nat (String.length s)).
  set (from := Z.min (Z.max start 0) len).
  exists (String.substring 0 (Z.to_nat from) s).
  replace (Z.to_nat (len - from)) with (String.length s - Z.to_nat from)%nat
    by (subst len from; lia).
  apply substring_split. subst len from. lia.
Qed.

(** [endsWithError] decides "a string ending in Error". *)
Lemma endsWithError_spec (v : JsValue) :
  endsWithError v = true <-> error_suffixed v.
Proof.
  unfold error_suffixed. split.
  - destruct v; try discriminate. unfold endsWithError. simpl typeof.
    rewrite String.eqb_refl, andb_true_l. intros E.
    apply String.eqb_eq in E. exists s. split; [reflexivity|].
    rewrite <- E at 1. apply String_substring_suffix.
  - intros [s [-> [p ->]]]. unfold endsWithError. simpl typeof.
    rewrite String.eqb_refl, andb_true_l. apply String.eqb_eq.
    unfold String_substring. rewrite length_app.
    change DOMExceptionName_Error with "Error".
    change (String.length "Error") with 5%nat.
    replace (Z.of_nat (String.length p + 5) - Z.of_nat 5)
      with (Z.of_nat (String.length p)) by lia.
    rewrite Z.max_l, Z.min_l by lia.
    rewrite Nat2Z.id.
    replace (Z.to_nat (Z.of_nat (String.length p + 5) - Z.of_nat (String.length p)))
      with 5%nat by lia.
    now rewrite substring_skip.
Qed.

Lemma endsWithError_false (v : JsValue) :
  endsWithError v = false <-> ~ error_suffixed v.
Proof.
  rewrite <- endsWithError_spec. destruct (endsWithError v); split; congruence.
Qed.

(** [isValidDomExceptionCode] decides "a number in 1 .. 25". *)
Lemma isValidDomExceptionCode_spec (v : JsValue) :
  isValidDomExceptionCode v = true <-> in_legacy_range v.
Proof.
  unfold in_legacy_range, isValidDomExceptionCode. split.
  - destruct v; simpl; try discriminate.
    intros H. apply andb_prop in H. exists x. tauto.
  - intros [x [-> [H1 H2]]]. simpl. now rewrite H1, H2.
Qed.

Lemma isValidDomExceptionCode_false (v : JsValue) :
  isValidDomExceptionCode v = false <-> ~ in_legacy_range v.
Proof.
  rewrite <- isValidDomExceptionCode_spec.
  destruct (isValidDomExceptionCode v); split; congruence.
Qed.

(** Each prototype object carries the mark of its own function, so that the
    marks [instanceof] compares stand for the identity of the objects. *)
Lemma prototype_identity (F : Fn) (o : Obj) :
  prototype F = Some o -> prototype_of o = Some F.
Proof. destruct F; simpl; intros [= <-]; reflexivity. Qed.

(* ================================================================= *)
(** ** Lemmas on the registry and on [code] *)

(** A list with one element for every integer from [lo] on. *)
Lemma In_range (lo j : Z) (n : nat) :
  lo <= j < lo + Z.of_nat n ->
  In j (map (fun i => lo + Z.of_nat i) (seq 0 n)).
Proof.
  intros H. apply in_map_iff. exists (Z.to_nat (j - lo)).
  split; [lia | apply in_seq; lia].
Qed.

(** On the integers an index of the registry can be, [-1] included, the
    validity test is the comparison with 1 and 25. *)
Lemma isValidDomExceptionCode_index (j : Z) :
  -1 <= j <= 37 ->
  isValidDomExceptionCode (JNumber (Number_of_Z j)) = (1 <=? j) && (j <=? 25).
Proof.
  intros H.
  assert (forallb
            (fun j => Bool.eqb (isValidDomExceptionCode (JNumber (Number_of_Z j)))
                        ((1 <=? j) && (j <=? 25)))
            (map (fun i => -1 + Z.of_nat i) (seq 0 39)) = true) as Hall
    by (vm_compute; reflexivity).
  rewrite forallb_forall in Hall.
  apply eqb_prop, Hall, In_range. lia.
Qed.

Lemma position_from_bounds (names : list string) (name : string) :
  forall i j, position_from i names name = Some j ->
  i <= j < i + Z.of_nat (List.length names).
Proof.
  induction names as [|n rest IH]; intros i j; simpl; [discriminate|].
  destruct (String.eqb n name).
  - intros [= <-]. lia.
  - intros H. apply IH in H. lia.
Qed.

(** [indexOf] on an array of strings is the search for the position. *)
Lemma Array_indexOf_strings (names : list string) (name : string) :
  forall i,
  Array_indexOf_from i (map JString names) (JString name)
  = match position_from i names name with Some j => j | None => -1 end.
Proof.
  induction names as [|n rest IH]; intros i; simpl; [reflexivity|].
  destruct (String.eqb n name); [reflexivity | apply IH].
Qed.

(** A value that is no string is found nowhere in an array of strings. *)
Lemma Array_indexOf_no_string (names : list string) (v : JsValue) :
  (forall k, v <> JString k) ->
  forall i, Array_indexOf_from i (map JString names) v = -1.
Proof.
  intros Hv. induction names as [|n rest IH]; intros i; simpl; [reflexivity|].
  destruct v; simpl; try apply IH. now contradiction (Hv s).
Qed.

(** The getter computes [positionOf] of the name. *)
Lemma code_of_name_position (name : JsValue) :
  code_of_name name = JNumber (Number_of_Z (positionOf_value name)).
Proof.
  unfold code_of_name, Array_indexOf, DOMExceptionNames.
  fold KindRegistry.
  destruct name;
    try (rewrite Array_indexOf_no_string by discriminate; reflexivity).
  rewrite Array_indexOf_strings. simpl positionOf_value. unfold positionOf.
  destruct (position_from 0 KindRegistry s) as [j|] eqn:E; [|reflexivity].
  apply position_from_bounds in E. change (List.length KindRegistry) with 37%nat in E.
  rewrite isValidDomExceptionCode_index by lia.
  now destruct ((1 <=? j) && (j <=? 25)).
Qed.

Lemma positionOf_range (name : string) : 0 <= positionOf name <= 25.
Proof.
  unfold positionOf. destruct (position_from 0 KindRegistry name) as [j|]; [|lia].
  destruct (1 <=? j) eqn:E1; destruct (j <=? 25) eqn:E2; simpl; lia.
Qed.

Lemma positionOf_value_range (name : JsValue) : 0 <= positionOf_value name <= 25.
Proof. destruct name; simpl; try lia. apply positionOf_range. Qed.

(** A name outside the registry has no position. *)
Lemma position_from_absent (names : list string) (name : string) :
  ~ In name names -> forall i, position_from i names name = None.
Proof.
  induction names as [|n rest IH]; intros Hn i; simpl; [reflexivity|].
  destruct (String.eqb n name) eqn:E.
  - apply String.eqb_eq in E. subst. contradiction Hn. now left.
  - apply IH. intros H. apply Hn. now right.
Qed.

Lemma nth_error_positions {A : Type} (l : list A) :
  forall (start n : nat) (a : A),
  nth_error l n = Some a ->
  In (Z.of_nat (start + n), a) (combine (map Z.of_nat (seq start (List.length l))) l).
Proof.
  induction l as [|x l IH]; intros start [|n] a; simpl; try discriminate.
  - intros [= <-]. left. now rewrite Nat.add_0_r.
  - intros H. right. replace (start + S n)%nat with (S start + n)%nat by lia.
    now apply IH.
Qed.

Lemma nameAt_positions (i : Z) (k : string) :
  nameAt i = Some k -> In (i, k) positions.
Proof.
  unfold nameAt. destruct (i <? 0) eqn:E; [discriminate|].
  intros H. apply (nth_error_positions _ 0) in H.
  replace (Z.of_nat (0 + Z.to_nat i)) with i in H by lia. exact H.
Qed.

(* ================================================================= *)
(** ** Lemmas on the constructors *)

Section Instances.
Variable host : Host.

(** The instance legacy-code mode builds. *)
Lemma new_DOMException_legacy (messageOrCode nameOrMessage : JsValue) :
  isValidDomExceptionCode messageOrCode = true ->
  new_DOMException host messageOrCode nameOrMessage
  = Normal
      (capture host
         (mkObj None
            [ ("name", Data (Array_get DOMExceptionNames messageOrCode) true true);
              ("message", Data (or_else nameOrMessage (JString "")) true true) ]
            (Some DOMException_prototype))
         FDOMException).
Proof.
  intros H. unfold new_DOMException, DOMException. rewrite H. reflexivity.
Qed.

(** The instance name/message mode builds. *)
Lemma new_DOMException_name_message (messageOrCode nameOrMessage : JsValue) :
  isValidDomExceptionCode messageOrCode = false ->
  new_DOMException host messageOrCode nameOrMessage
  = Normal
      (capture host
         (mkObj None
            [ ("message", Data messageOrCode true true);
              ("name",
               Data (if endsWithError nameOrMessage then nameOrMessage
                     else JString "Error") true true) ]
            (Some DOMException_prototype))
         FDOMException).
Proof.
  intros H. unfold new_DOMException, DOMException. rewrite H. reflexivity.
Qed.

(** The instance [new ParseError] builds. *)
Lemma new_ParseError_instance (message locator : JsValue) :
  new_ParseError host message locator
  = Normal
      (capture host
         (mkObj None
            [ ("message", Data message true true);
              ("locator", Data locator true true) ]
            (Some ParseError_prototype))
         FParseError).
Proof. reflexivity. Qed.

(** Capturing the trace adds [stack] and changes nothing else. *)
Lemma assoc_define_own_other (own : Table Property) (k k' : string) (p : Property) :
  k <> k' -> assoc k (define_own own k' p) = assoc k own.
Proof.
  intros Hk. induction own as [|[k0 p0] rest IH]; simpl.
  - destruct (String.eqb k' k) eqn:E; [|reflexivity].
    apply String.eqb_eq in E. congruence.
  - destruct (String.eqb k0 k') eqn:E'; simpl.
    + apply String.eqb_eq in E'. subst k0.
      destruct (String.eqb k' k) eqn:E; [|reflexivity].
      apply String.eqb_eq in E. congruence.
    + now rewrite IH.
Qed.

Lemma find_property_capture (o : Obj) (F : Fn) (k : string) :
  k <> "stack" -> find_property (capture host o F) k = find_property o k.
Proof.
  intros Hk. unfold capture.
  destruct (Error_captureStackTrace host) as [f|]; [|reflexivity].
  destruct o as [tag own proto]. simpl.
  now rewrite assoc_define_own_other.
Qed.

Lemma assoc_capture (o : Obj) (F : Fn) (k : string) :
  k <> "stack" ->
  assoc k (own_properties (capture host o F)) = assoc k (own_properties o).
Proof.
  intros Hk. unfold capture.
  destruct (Error_captureStackTrace host) as [f|]; [|reflexivity].
  destruct o as [tag own proto]. simpl.
  now rewrite assoc_define_own_other.
Qed.

Lemma Get_capture (o : Obj) (F : Fn) (k : string) :
  k <> "stack" -> Get (capture host o F) k = Get o k.
Proof.
  intros Hk. unfold Get. rewrite find_property_capture by exact Hk.
  destruct (find_property o k) as [[v w e|[[]|] e]|]; try reflexivity.
  unfold call_getter, code_getter, GetData.
  now rewrite find_property_capture by discriminate.
Qed.


(** Reading the three fields of an instance of [DOMException] whose own
    [name] and [message] are data properties, in either creation order. *)
Lemma Get_fields_legacy (n m : JsValue) (e1 e2 w1 w2 : bool) :
  let inst :=
    capture host
      (mkObj None [("name", Data n w1 e1); ("message", Data m w2 e2)]
         (Some DOMException_prototype)) FDOMException in
  Get inst "name" = n /\ Get inst "message" = m /\ Get inst "code" = code_of_name n.
Proof.
  cbv zeta. rewrite !Get_capture by discriminate. repeat split.
Qed.

Lemma Get_fields_name_message (n m : JsValue) (e1 e2 w1 w2 : bool) :
  let inst :=
    capture host
      (mkObj None [("message", Data m w2 e2); ("name", Data n w1 e1)]
         (Some DOMException_prototype)) FDOMException in
  Get inst "name" = n /\ Get inst "message" = m /\ Get inst "code" = code_of_name n.
Proof.
  cbv zeta. rewrite !Get_capture by discriminate. repeat split.
Qed.

(** [this.name] inside the getter is a data read on every instance the
    constructors build. *)
Lemma name_is_data (p s : JsValue) (inst : Obj) :
  new_DOMException host p s = Normal inst \/ new_ParseError host p s = Normal inst ->
  exists v w e, find_property inst "name" = Some (Data v w e).
Proof.
  intros [H|H].
  - destruct (isValidDomExceptionCode p) eqn:E.
    + rewrite new_DOMException_legacy in H by exact E. injection H as <-.
      rewrite find_property_capture by discriminate. simpl. eauto.
    + rewrite new_DOMException_name_message in H by exact E. injection H as <-.
      rewrite find_property_capture by discriminate. simpl. eauto.
  - rewrite new_ParseError_instance in H. injection H as <-.
    rewrite find_property_capture by discriminate. simpl. eauto.
Qed.
End Instances.

(** The registry read at one of the integers 1 .. 25. *)
Lemma Array_get_legacy (n : Z) :
  1 <= n <= 25 ->
  exists k,
    nameAt n = Some k /\
    Array_get DOMExceptionNames (JNumber (Number_of_Z n)) = JString k /\
    positionOf k = n.
Proof.
  intros Hn.
  assert (In n (map (fun i => 1 + Z.of_nat i) (seq 0 25))) as H
    by (apply In_range; lia).
  clear Hn. vm_compute in H.
  repeat destruct H as [<-|H]; try contradiction;
    eexists; (split; [reflexivity | split; vm_compute; reflexivity]).
Qed.

(** The position of a name standing in the registry. *)
Lemma positionOf_positions (i : Z) (k : string) :
  In (i, k) positions ->
  positionOf k = if (1 <=? i) && (i <=? 25) then i else 0.
Proof.
  intros H.
  assert (forallb
            (fun ik => positionOf (snd ik)
                       =? (if (1 <=? fst ik) && (fst ik <=? 25) then fst ik else 0))
            positions = true) as Hall by (vm_compute; reflexivity).
  rewrite forallb_forall in Hall. apply Hall in H. now apply Z.eqb_eq in H.
Qed.

Lemma In_positions_registry (i : Z) (k : string) :
  In (i, k) positions -> In k KindRegistry.
Proof. intros H. now apply in_combine_r in H. Qed.

Lemma existsb_false_not_In (k : string) (l : list string) :
  existsb (String.eqb k) l = false -> ~ In k l.
Proof.
  intros H Hin.
  assert (existsb (String.eqb k) l = true) as E
    by (apply existsb_exists; exists k; split; [exact Hin | apply String.eqb_refl]).
  congruence.
Qed.

Lemma existsb_true_In (k : string) (l : list string) :
  existsb (String.eqb k) l = true -> In k l.
Proof.
  intros H. apply existsb_exists in H. destruct H as [x [Hin E]].
  apply String.eqb_eq in E. now subst.
Qed.

Lemma not_In_registry (k : string) :
  existsb (String.eqb k) KindRegistry = false -> ~ In k KindRegistry.
Proof. apply existsb_false_not_In. Qed.

(** Every name of the registry ends in ["Error"]. *)
Lemma registry_error_suffixed (k : string) :
  In k KindRegistry -> endsWithError (JString k) = true.
Proof.
  intros H.
  assert (forallb (fun k => endsWithError (JString k)) KindRegistry = true) as Hall
    by (vm_compute; reflexivity).
  rewrite forallb_forall in Hall. now apply Hall.
Qed.

(* ================================================================= *)
(** ** Properties of the construction of [DOMException] *)

Lemma names_no_kind_spec (v : JsValue) :
  names_no_kind v -> endsWithError v = false.
Proof.
  intros H. apply endsWithError_false. intros [k [-> Hk]].
  destruct H as [H|[[k' [[= <-] H]]|H]].
  - discriminate.
  - contradiction.
  - apply H. now exists k.
Qed.

(** C1. For every integer [n] with [1 <= n <= 25] and every string [m],
    [new DOMException(n, m)] takes the legacy-code branch and yields an
    instance whose [name] is the registry name at position [n], whose
    [message] is [m] and whose [code] reads back as [n]. *)
Theorem legacy_code_construction (host : Host) (n : Z) (m : string) :
  1 <= n <= 25 ->
  isValidDomExceptionCode (JNumber (Number_of_Z n)) = true /\
  exists inst name,
    new_DOMException host (JNumber (Number_of_Z n)) (JString m) = Normal inst /\
    nameAt n = Some name /\
    Get inst "name" = JString name /\
    Get inst "message" = JString m /\
    Get inst "code" = JNumber (Number_of_Z n).
Proof.
  intros Hn.
  assert (isValidDomExceptionCode (JNumber (Number_of_Z n)) = true) as Hvalid.
  { rewrite isValidDomExceptionCode_index by lia.
    apply andb_true_intro. split; apply Z.leb_le; lia. }
  split; [exact Hvalid|].
  destruct (Array_get_legacy n Hn) as (k & Hat & Hget & Hpos).
  eexists. exists k. split; [apply new_DOMException_legacy, Hvalid|].
  split; [exact Hat|].
  match goal with
  | |- context [capture host (mkObj None [(_, Data ?a _ _); (_, Data ?b _ _)] _) _] =>
      destruct (Get_fields_legacy host a b true true true true) as (-> & -> & ->)
  end.
  rewrite Hget, or_else_string, code_of_name_position. simpl. rewrite Hpos.
  repeat split.
Qed.

Lemma legacy_code_construction_witness :
  1 <= 3 <= 25 /\
  isValidDomExceptionCode (JNumber (Number_of_Z 3)) = true /\
  exists inst name,
    new_DOMException tracing_host (JNumber (Number_of_Z 3)) (JString "m") = Normal inst /\
    nameAt 3 = Some name /\
    Get inst "name" = JString name /\
    Get inst "message" = JString "m" /\
    Get inst "code" = JNumber (Number_of_Z 3).
Proof.
  split; [lia | apply (legacy_code_construction tracing_host 3 "m"); lia].
Defined.

(** The scenario of the specification: [new DOMException(3)]. *)
Example construct_3 :
  exists inst,
    new_DOMException plain_host (JNumber 3) JUndefined = Normal inst /\
    Get inst "name" = JString "HierarchyRequestError" /\
    Get inst "code" = JNumber 3 /\
    Get inst "message" = JString "".
Proof. eexists. split; [reflexivity|]. repeat split. Qed.

(** C2. For every [messageOrCode] that is not a number in the closed range
    1 .. 25 (0, 26, a value that is no number, [undefined] for an omitted
    argument), construction takes the name/message branch and stores
    [messageOrCode] itself, uncoerced, as the [message] of the instance. *)
Theorem out_of_range_is_message (host : Host) (messageOrCode nameOrMessage : JsValue) :
  ~ in_legacy_range messageOrCode ->
  isValidDomExceptionCode messageOrCode = false /\
  exists inst,
    new_DOMException host messageOrCode nameOrMessage = Normal inst /\
    assoc "message" (own_properties inst) = Some (Data messageOrCode true true) /\
    Get inst "message" = messageOrCode /\
    Get inst "name"
    = if endsWithError nameOrMessage then nameOrMessage else JString "Error".
Proof.
  intros H. apply isValidDomExceptionCode_false in H. split; [exact H|].
  eexists. split; [apply new_DOMException_name_message, H|].
  split.
  - unfold capture. now destruct (Error_captureStackTrace host).
  - match goal with
    | |- context [capture host (mkObj None [(_, Data ?a _ _); (_, Data ?b _ _)] _) _] =>
        destruct (Get_fields_name_message host b a true true true true) as (-> & -> & _)
    end.
    split; reflexivity.
Qed.

Lemma out_of_range_is_message_witness :
  ~ in_legacy_range (JNumber 99) /\
  isValidDomExceptionCode (JNumber 99) = false /\
  exists inst,
    new_DOMException plain_host (JNumber 99) (JString "x") = Normal inst /\
    assoc "message" (own_properties inst) = Some (Data (JNumber 99) true true) /\
    Get inst "message" = JNumber 99 /\
    Get inst "name"
    = if endsWithError (JString "x") then JString "x" else JString "Error".
Proof.
  assert (~ in_legacy_range (JNumber 99)) as H
    by (apply isValidDomExceptionCode_false; reflexivity).
  split; [exact H | apply (out_of_range_is_message plain_host _ _ H)].
Defined.

(** The values the specification lists are outside the range. *)
Example outside_legacy_range :
  ~ in_legacy_range (JNumber 0) /\ ~ in_legacy_range (JNumber 26) /\
  ~ in_legacy_range (JString "3") /\ ~ in_legacy_range JUndefined /\
  ~ in_legacy_range (JNumber PrimFloat.nan).
Proof. repeat split; apply isValidDomExceptionCode_false; reflexivity. Qed.

(** The scenario of the specification: [new DOMException(99, "x")]. *)
Example construct_99_x :
  exists inst,
    new_DOMException plain_host (JNumber 99) (JString "x") = Normal inst /\
    Get inst "message" = JNumber 99 /\
    Get inst "name" = JString "Error" /\
    Get inst "code" = JNumber 0.
Proof. eexists. split; [reflexivity|]. repeat split. Qed.

(** The scenarios of the specification: [new DOMException("bad token",
    "SyntaxError")] and [new DOMException("bad token")]. *)
Example construct_bad_token_SyntaxError :
  exists inst,
    new_DOMException plain_host (JString "bad token") (JString "SyntaxError")
    = Normal inst /\
    Get inst "name" = JString "SyntaxError" /\
    Get inst "code" = JNumber 12.
Proof. eexists. split; [reflexivity|]. repeat split. Qed.

Example construct_bad_token :
  exists inst,
    new_DOMException plain_host (JString "bad token") JUndefined = Normal inst /\
    Get inst "name" = JString "Error" /\
    Get inst "code" = JNumber 0.
Proof. eexists. split; [reflexivity|]. repeat split. Qed.

(** A number in the range that is no integer passes the validity test and
    finds no element of the registry: the [name] is [undefined]. *)
Example construct_fraction :
  exists inst,
    new_DOMException plain_host (JNumber 1.5) JUndefined = Normal inst /\
    isValidDomExceptionCode (JNumber 1.5) = true /\
    Get inst "name" = JUndefined /\
    Get inst "code" = JNumber 0.
Proof. eexists. split; [reflexivity|]. repeat split. Qed.

(** C3, as the specification states it, fails: the sentence speaks of every
    construction whose second argument is omitted, and [new DOMException(3)]
    is one; its [name] is ["HierarchyRequestError"] and its [code] is 3. *)
Lemma name_defaults_counterexample :
  exists inst,
    new_DOMException plain_host (JNumber 3) JUndefined = Normal inst /\
    names_no_kind JUndefined /\
    Get inst "name" = JString "HierarchyRequestError" /\
    Get inst "name" <> JString "Error" /\
    Get inst "code" = JNumber 3 /\
    Get inst "code" <> JNumber 0.
Proof.
  eexists. split; [reflexivity|].
  split; [now left|].
  split; [reflexivity|]. split; [discriminate|].
  split; [reflexivity|]. now apply JNumber_neq.
Qed.

(** C3, amended. For every construction in name/message mode (the first
    argument is not a number in 1 .. 25) whose second argument is omitted, or
    is a string not ending in ["Error"], or is not a string, the instance has
    [name] equal to ["Error"] and [code] equal to 0. *)
Theorem name_defaults_to_Error (host : Host) (messageOrCode nameOrMessage : JsValue) :
  ~ in_legacy_range messageOrCode ->
  names_no_kind nameOrMessage ->
  exists inst,
    new_DOMException host messageOrCode nameOrMessage = Normal inst /\
    Get inst "name" = JString "Error" /\
    Get inst "code" = JNumber 0.
Proof.
  intros Hp Hs. apply isValidDomExceptionCode_false in Hp.
  apply names_no_kind_spec in Hs.
  eexists. split; [apply new_DOMException_name_message, Hp|].
  rewrite Hs.
  match goal with
  | |- context [capture host (mkObj None [(_, Data ?a _ _); (_, Data ?b _ _)] _) _] =>
      destruct (Get_fields_name_message host b a true true true true) as (-> & _ & ->)
  end.
  split; reflexivity.
Qed.

Lemma name_defaults_to_Error_witness :
  ~ in_legacy_range (JString "bad token") /\
  names_no_kind JUndefined /\
  exists inst,
    new_DOMException tracing_host (JString "bad token") JUndefined = Normal inst /\
    Get inst "name" = JString "Error" /\
    Get inst "code" = JNumber 0.
Proof.
  assert (~ in_legacy_range (JString "bad token")) as Hp
    by (apply isValidDomExceptionCode_false; reflexivity).
  assert (names_no_kind JUndefined) as Hs by (left; reflexivity).
  split; [exact Hp | split; [exact Hs|]].
  apply (name_defaults_to_Error tracing_host _ _ Hp Hs).
Defined.

(** C10. For every string that ends in ["Error"] and is not a name of the
    registry (["FooError"]), name/message-mode construction stores the string
    itself as [name], not the generic ["Error"], and [code] reads as 0: names
    outside the registry are reachable through the constructor. *)
Theorem unregistered_name_is_kept (host : Host) (messageOrCode : JsValue) (k : string) :
  ~ in_legacy_range messageOrCode ->
  ends_with "Error" k ->
  ~ In k KindRegistry ->
  exists inst,
    new_DOMException host messageOrCode (JString k) = Normal inst /\
    Get inst "name" = JString k /\
    Get inst "name" <> JString "Error" /\
    ~ registry_name (Get inst "name") /\
    Get inst "code" = JNumber 0.
Proof.
  intros Hp Hk Hout. apply isValidDomExceptionCode_false in Hp.
  assert (endsWithError (JString k) = true) as He
    by (apply endsWithError_spec; exists k; split; [reflexivity | exact Hk]).
  eexists. split; [apply new_DOMException_name_message, Hp|].
  rewrite He.
  match goal with
  | |- context [capture host (mkObj None [(_, Data ?a _ _); (_, Data ?b _ _)] _) _] =>
      destruct (Get_fields_name_message host b a true true true true) as (-> & _ & ->)
  end.
  split; [reflexivity|]. split; [|split].
  - intros [= ->]. apply Hout. now left.
  - intros [k' [Hin [= <-]]]. contradiction.
  - rewrite code_of_name_position. simpl. unfold positionOf.
    now rewrite position_from_absent.
Qed.

Lemma unregistered_name_is_kept_witness :
  ~ in_legacy_range (JString "m") /\
  ends_with "Error" "FooError" /\
  ~ In "FooError" KindRegistry /\
  exists inst,
    new_DOMException plain_host (JString "m") (JString "FooError") = Normal inst /\
    Get inst "name" = JString "FooError" /\
    Get inst "name" <> JString "Error" /\
    ~ registry_name (Get inst "name") /\
    Get inst "code" = JNumber 0.
Proof.
  assert (~ in_legacy_range (JString "m")) as Hp
    by (apply isValidDomExceptionCode_false; reflexivity).
  assert (ends_with "Error" "FooError") as Hk by (exists "Foo"; reflexivity).
  assert (~ In "FooError" KindRegistry) as Hout
    by (apply not_In_registry; reflexivity).
  split; [exact Hp | split; [exact Hk | split; [exact Hout|]]].
  apply (unregistered_name_is_kept plain_host _ _ Hp Hk Hout).
Defined.

(** C4, as the specification states it, fails: a [name] need not be one of
    the registry's names. [new DOMException("m", "FooError")] has the name
    ["FooError"], which the registry does not hold. *)
Lemma invariant_counterexample :
  exists inst,
    new_DOMException plain_host (JString "m") (JString "FooError") = Normal inst /\
    Get inst "name" = JString "FooError" /\
    ~ registry_name (Get inst "name").
Proof.
  eexists. split; [reflexivity|]. split; [reflexivity|].
  intros [k [Hin E]]. change (JString "FooError" = JString k) in E.
  injection E as <-. revert Hin. apply not_In_registry. reflexivity.
Qed.

(** C4, amended. Every construction yields an instance whose [code] is the
    registry position of its [name] (the position when the name stands at one
    of the positions 1 .. 25, otherwise 0), so [code] is an integer in
    0 .. 25 and never disagrees with [name]. The [name] itself is the
    registry name at the code given in legacy-code mode (an integer 1 .. 25);
    in name/message mode it is the second argument when that is a string
    ending in ["Error"], registered or not, and ["Error"] otherwise. *)
Theorem code_is_position_of_name (host : Host) (messageOrCode nameOrMessage : JsValue) :
  exists inst,
    new_DOMException host messageOrCode nameOrMessage = Normal inst /\
    Get inst "code" = JNumber (Number_of_Z (positionOf_value (Get inst "name"))) /\
    0 <= positionOf_value (Get inst "name") <= 25 /\
    (forall n, 1 <= n <= 25 -> messageOrCode = JNumber (Number_of_Z n) ->
       exists k, nameAt n = Some k /\ In k KindRegistry /\
                 Get inst "name" = JString k /\ positionOf k = n) /\
    (~ in_legacy_range messageOrCode ->
       (error_suffixed nameOrMessage /\ Get inst "name" = nameOrMessage)
       \/ (~ error_suffixed nameOrMessage /\ Get inst "name" = JString "Error")).
Proof.
  destruct (isValidDomExceptionCode messageOrCode) eqn:Hvalid.
  - eexists. split; [apply new_DOMException_legacy, Hvalid|].
    match goal with
    | |- context [capture host (mkObj None [(_, Data ?a _ _); (_, Data ?b _ _)] _) _] =>
        destruct (Get_fields_legacy host a b true true true true) as (-> & _ & ->)
    end.
    split; [apply code_of_name_position|].
    split; [apply positionOf_value_range|]. split.
    + intros n Hn ->.
      destruct (Array_get_legacy n Hn) as (k & Hat & Hget & Hpos).
      exists k. rewrite Hget. repeat split; try assumption.
      eapply In_positions_registry, nameAt_positions, Hat.
    + intros H. apply isValidDomExceptionCode_false in H. congruence.
  - eexists. split; [apply new_DOMException_name_message, Hvalid|].
    match goal with
    | |- context [capture host (mkObj None [(_, Data ?a _ _); (_, Data ?b _ _)] _) _] =>
        destruct (Get_fields_name_message host b a true true true true) as (-> & _ & ->)
    end.
    split; [apply code_of_name_position|].
    split; [apply positionOf_value_range|]. split.
    + intros n Hn ->. rewrite isValidDomExceptionCode_index in Hvalid by lia.
      apply andb_false_iff in Hvalid. destruct Hvalid as [H|H]; apply Z.leb_gt in H; lia.
    + intros _. destruct (endsWithError nameOrMessage) eqn:He.
      * left. split; [now apply endsWithError_spec | reflexivity].
      * right. split; [now apply endsWithError_false | reflexivity].
Qed.

(** C5, as the specification states it, fails: an out-of-range number is one
    of the malformed inputs it lists, yet [new DOMException(99, "SyntaxError")]
    carries the kind ["SyntaxError"], not the generic ["Error"]. *)
Lemma normalization_counterexample :
  exists inst,
    new_DOMException plain_host (JNumber 99) (JString "SyntaxError") = Normal inst /\
    ~ in_legacy_range (JNumber 99) /\
    Get inst "name" = JString "SyntaxError" /\
    Get inst "name" <> JString "Error".
Proof.
  eexists. split; [reflexivity|].
  split; [apply isValidDomExceptionCode_false; reflexivity|].
  split; [reflexivity | discriminate].
Qed.

(** C5, amended. Construction never fails, whatever the two arguments; and
    when neither argument selects a kind (the first is not a number in
    1 .. 25, the second is not a string ending in ["Error"]) the instance
    carries the generic ["Error"] kind, with [code] 0, instead of being
    rejected. An out-of-range number, or any other first argument that is no
    number in 1 .. 25, given together with a second argument that is a string
    ending in ["Error"] keeps that second argument as its kind, and [code] is
    the registry position of that string. *)
Theorem construction_never_fails (host : Host) (messageOrCode nameOrMessage : JsValue) :
  exists inst,
    new_DOMException host messageOrCode nameOrMessage = Normal inst /\
    (~ in_legacy_range messageOrCode ->
     ~ error_suffixed nameOrMessage ->
     Get inst "name" = JString "Error" /\ Get inst "code" = JNumber 0) /\
    (~ in_legacy_range messageOrCode ->
     error_suffixed nameOrMessage ->
     Get inst "name" = nameOrMessage /\
     Get inst "message" = messageOrCode /\
     Get inst "code" = JNumber (Number_of_Z (positionOf_value nameOrMessage))).
Proof.
  destruct (isValidDomExceptionCode messageOrCode) eqn:Hvalid.
  - eexists. split; [apply new_DOMException_legacy, Hvalid|].
    split; intros H; apply isValidDomExceptionCode_false in H; congruence.
  - eexists. split; [apply new_DOMException_name_message, Hvalid|].
    match goal with
    | |- context [capture host (mkObj None [(_, Data ?a _ _); (_, Data ?b _ _)] _) _] =>
        destruct (Get_fields_name_message host b a true true true true) as (-> & -> & ->)
    end.
    split.
    + intros _ Hs. apply endsWithError_false in Hs. rewrite Hs.
      split; reflexivity.
    + intros _ Hs. apply endsWithError_spec in Hs. rewrite Hs.
      repeat split. apply code_of_name_position.
Qed.

(** C7, as the specification states it, fails: the message is not coerced.
    [new DOMException(3, 42)] stores the number 42, which is no string. *)
Lemma message_coercion_counterexample :
  exists inst,
    new_DOMException plain_host (JNumber 3) (JNumber 42) = Normal inst /\
    in_legacy_range (JNumber 3) /\
    Get inst "message" = JNumber 42 /\
    ~ is_string (Get inst "message").
Proof.
  eexists. split; [reflexivity|].
  split; [apply isValidDomExceptionCode_spec; reflexivity|].
  split; [reflexivity|]. intros [s E]. discriminate E.
Qed.

(** C7, amended. In legacy-code mode the stored message is the second
    argument itself, uncoerced, when that is truthy, and the empty string
    when it is absent or otherwise falsy; so for every string given as second
    argument the message is that string, and for an absent one it is the
    empty string. *)
Theorem legacy_message (host : Host) (messageOrCode nameOrMessage : JsValue) :
  in_legacy_range messageOrCode ->
  exists inst,
    new_DOMException host messageOrCode nameOrMessage = Normal inst /\
    Get inst "message"
    = (if ToBoolean nameOrMessage then nameOrMessage else JString "") /\
    (nameOrMessage = JUndefined -> Get inst "message" = JString "") /\
    (forall m, nameOrMessage = JString m -> Get inst "message" = JString m).
Proof.
  intros H. apply isValidDomExceptionCode_spec in H.
  eexists. split; [apply new_DOMException_legacy, H|].
  match goal with
  | |- context [capture host (mkObj None [(_, Data ?a _ _); (_, Data ?b _ _)] _) _] =>
      destruct (Get_fields_legacy host a b true true true true) as (_ & -> & _)
  end.
  split; [reflexivity|]. split.
  - now intros ->.
  - intros m ->. apply or_else_string.
Qed.

Lemma legacy_message_witness :
  in_legacy_range (JNumber 12) /\
  exists inst,
    new_DOMException tracing_host (JNumber 12) (JObject 7) = Normal inst /\
    Get inst "message"
    = (if ToBoolean (JObject 7) then JObject 7 else JString "") /\
    (JObject 7 = JUndefined -> Get inst "message" = JString "") /\
    (forall m, JObject 7 = JString m -> Get inst "message" = JString m).
Proof.
  assert (in_legacy_range (JNumber 12)) as H
    by (apply isValidDomExceptionCode_spec; reflexivity).
  split; [exact H | apply (legacy_message tracing_host _ _ H)].
Defined.

(* ================================================================= *)
(** ** Properties of the registry and of the legacy constants *)

(** C6. Each of the 25 legacy constants, [INDEX_SIZE_ERR = 1] through
    [DATA_CLONE_ERR = 25], equals the registry position of its kind: looking
    the kind's name up in the registry returns the constant's value, and so
    does the [code] getter. The static properties of [DOMException] repeat
    the constants. *)
Theorem legacy_constants_are_positions :
  Object_keys legacy_kind = Object_keys ExceptionCode /\
  map snd ExceptionCode
  = map (fun i => JNumber (Number_of_Z (1 + Z.of_nat i))) (seq 0 25) /\
  DOMException_statics = ExceptionCode /\
  forall c k, In (c, k) legacy_kind ->
    In k KindRegistry /\
    1 <= positionOf k <= 25 /\
    member ExceptionCode c = JNumber (Number_of_Z (positionOf k)) /\
    member ExceptionCode c
    = JNumber (Number_of_Z (Array_indexOf DOMExceptionNames (JString k))) /\
    member ExceptionCode c = code_of_name (JString k).
Proof.
  split; [reflexivity|]. split; [reflexivity|]. split; [reflexivity|].
  intros c k H. simpl in H.
  repeat destruct H as [[= <- <-]|H]; try contradiction;
    (split; [apply existsb_true_In; reflexivity|]);
    (split; [split; apply Z.leb_le; vm_compute; reflexivity|]);
    repeat split; vm_compute; reflexivity.
Qed.

(** C8, as the specification states it, fails on the count: the registry has
    37 names, not 34. *)
Lemma registry_size_counterexample :
  List.length (Object_keys DOMExceptionName) = 37%nat /\
  List.length (Object_keys DOMExceptionName) <> 34%nat.
Proof. split; [reflexivity | discriminate]. Qed.

(** C8, amended. The registry is an ordered sequence of exactly 37 distinct
    kind names, beginning with ["Error"] and ending with ["OptOutError"]; its
    order assigns the legacy codes: the kind at each of the positions
    1 .. 25 has its position as code, and the kinds elsewhere (position 0 and
    positions 26 .. 36) have no legacy code, their [code] being 0. *)
Theorem registry_order :
  List.length KindRegistry = 37%nat /\
  NoDup KindRegistry /\
  nameAt 0 = Some "Error" /\
  nameAt 36 = Some "OptOutError" /\
  DOMExceptionNames = map JString KindRegistry /\
  (forall i k, nameAt i = Some k -> 0 <= i <= 36) /\
  (forall i, 0 <= i <= 36 -> exists k, nameAt i = Some k) /\
  (forall host message i k,
     ~ in_legacy_range message ->
     nameAt i = Some k ->
     exists inst,
       new_DOMException host message (JString k) = Normal inst /\
       Get inst "name" = JString k /\
       Get inst "code"
       = JNumber (Number_of_Z (if (1 <=? i) && (i <=? 25) then i else 0))).
Proof.
  split; [reflexivity|]. split.
  { unfold KindRegistry, Object_keys, DOMExceptionName, freeze. simpl.
    repeat (apply NoDup_cons; [apply existsb_false_not_In; reflexivity|]).
    apply NoDup_nil. }
  split; [reflexivity|]. split; [reflexivity|]. split; [reflexivity|].
  split; [|split].
  - intros i k H. unfold nameAt in H. destruct (i <? 0) eqn:E; [discriminate|].
    apply Z.ltb_ge in E.
    assert (Z.to_nat i < List.length KindRegistry)%nat as Hlt
      by (apply nth_error_Some; congruence).
    change (List.length KindRegistry) with 37%nat in Hlt. lia.
  - intros i Hi. unfold nameAt. destruct (i <? 0) eqn:E; [apply Z.ltb_lt in E; lia|].
    destruct (nth_error KindRegistry (Z.to_nat i)) as [k|] eqn:En; [now exists k|].
    apply nth_error_None in En.
    change (List.length KindRegistry) with 37%nat in En. lia.
  - intros host message i k Hm Hat.
    apply isValidDomExceptionCode_false in Hm.
    apply nameAt_positions in Hat.
    eexists. split; [apply new_DOMException_name_message, Hm|].
    rewrite (registry_error_suffixed k) by (eapply In_positions_registry, Hat).
    match goal with
    | |- context [capture host (mkObj None [(_, Data ?a _ _); (_, Data ?b _ _)] _) _] =>
        destruct (Get_fields_name_message host b a true true true true) as (-> & _ & ->)
    end.
    split; [reflexivity|].
    rewrite code_of_name_position. simpl.
    now rewrite (positionOf_positions i k Hat).
Qed.

(* ================================================================= *)
(** ** Properties of [ParseError] *)


(* ================================================================= *)
(** ** Further properties of the specification *)

(** X1. For every name [K] of the registry and every message that is no
    legacy code, [new DOMException(message, K)] yields [name = K] and
    [code = positionOf(K)], which is 0 when [K] has no legacy position. *)
Theorem registered_name_construction (host : Host) (message : JsValue) (K : string) :
  ~ in_legacy_range message ->
  In K KindRegistry ->
  exists inst,
    new_DOMException host message (JString K) = Normal inst /\
    Get inst "name" = JString K /\
    Get inst "message" = message /\
    Get inst "code" = JNumber (Number_of_Z (positionOf K)).
Proof.
  intros Hm HK. apply isValidDomExceptionCode_false in Hm.
  eexists. split; [apply new_DOMException_name_message, Hm|].
  rewrite (registry_error_suffixed K HK).
  match goal with
  | |- context [capture host (mkObj None [(_, Data ?a _ _); (_, Data ?b _ _)] _) _] =>
      destruct (Get_fields_name_message host b a true true true true) as (-> & -> & ->)
  end.
  repeat split. apply code_of_name_position.
Qed.

Lemma registered_name_construction_witness :
  ~ in_legacy_range (JString "bad token") /\
  In "SyntaxError" KindRegistry /\
  exists inst,
    new_DOMException tracing_host (JString "bad token") (JString "SyntaxError")
    = Normal inst /\
    Get inst "name" = JString "SyntaxError" /\
    Get inst "message" = JString "bad token" /\
    Get inst "code" = JNumber (Number_of_Z (positionOf "SyntaxError")).
Proof.
  assert (~ in_legacy_range (JString "bad token")) as Hm
    by (apply isValidDomExceptionCode_false; reflexivity).
  assert (In "SyntaxError" KindRegistry) as HK
    by (apply existsb_true_In; reflexivity).
  split; [exact Hm | split; [exact HK|]].
  apply (registered_name_construction tracing_host _ _ Hm HK).
Defined.

(** X2. Whether or not the host captures a trace, construction succeeds and
    every property other than [stack] reads the same: on any two hosts the
    instances built from the same arguments agree on [name], [message],
    [code] and the rest. The host only decides whether the instance gets an
    own property [stack]: it does exactly when [Error.captureStackTrace]
    exists. *)
Theorem trace_changes_no_field
  (host host' : Host) (messageOrCode nameOrMessage : JsValue) :
  exists inst inst',
    new_DOMException host messageOrCode nameOrMessage = Normal inst /\
    new_DOMException host' messageOrCode nameOrMessage = Normal inst' /\
    (forall k, k <> "stack" -> Get inst k = Get inst' k) /\
    (forall k, k <> "stack" ->
       assoc k (own_properties inst) = assoc k (own_properties inst')) /\
    (assoc "stack" (own_properties inst) <> None
     <-> Error_captureStackTrace host <> None).
Proof.
  destruct (isValidDomExceptionCode messageOrCode) eqn:Hvalid.
  - do 2 eexists.
    split; [apply new_DOMException_legacy, Hvalid|].
    split; [apply new_DOMException_legacy, Hvalid|].
    split; [intros k Hk; now rewrite !Get_capture by exact Hk|].
    split; [intros k Hk; now rewrite !assoc_capture by exact Hk|].
    unfold capture. destruct (Error_captureStackTrace host); simpl; split;
      intros H; congruence.
  - do 2 eexists.
    split; [apply new_DOMException_name_message, Hvalid|].
    split; [apply new_DOMException_name_message, Hvalid|].
    split; [intros k Hk; now rewrite !Get_capture by exact Hk|].
    split; [intros k Hk; now rewrite !assoc_capture by exact Hk|].
    unfold capture. destruct (Error_captureStackTrace host); simpl; split;
      intros H; congruence.
Qed.

(* ================================================================= *)
(** ** Numbers that compare equal *)

(** Two floating-point numbers that compare equal compare alike with every
    third number: they differ at most in the sign of zero. *)
Lemma SFcompare_Eq (a b : SpecFloat.spec_float) :
  SpecFloat.SFcompare a b = Some Eq ->
  forall c, SpecFloat.SFcompare c a = SpecFloat.SFcompare c b
            /\ SpecFloat.SFcompare a c = SpecFloat.SFcompare b c.
Proof.
  intros H.
  destruct a as [sa|sa| |sa ma ea], b as [sb|sb| |sb mb eb]; simpl in H;
    try discriminate;
    try (destruct sa, sb; discriminate);
    try (destruct sa; discriminate);
    try (destruct sb; discriminate).
  - intros [ | | | ]; intros; split; reflexivity.
  - destruct sa, sb; try discriminate; intros c; split; reflexivity.
  - assert (sa = sb /\ ea = eb /\ ma = mb) as (-> & -> & ->).
    { destruct sa, sb; try discriminate;
        destruct (Z.compare_spec ea eb) as [E|E|E]; try discriminate;
        destruct (Pos.compare_cont Eq ma mb) eqn:Em; try discriminate;
        apply Pos.compare_eq in Em; now subst. }
    intros c; split; reflexivity.
Qed.

(** The validity test does not tell apart numbers that compare equal. *)
Lemma isValidDomExceptionCode_eqb (c x : float) :
  PrimFloat.eqb c x = true ->
  isValidDomExceptionCode (JNumber x) = isValidDomExceptionCode (JNumber c).
Proof.
  rewrite FloatAxioms.eqb_spec. unfold SpecFloat.SFeqb.
  destruct (SpecFloat.SFcompare (FloatOps.Prim2SF c) (FloatOps.Prim2SF x))
    as [[ | | ]|] eqn:E; try discriminate.
  intros _. unfold isValidDomExceptionCode. simpl.
  rewrite !FloatAxioms.leb_spec. unfold SpecFloat.SFleb.
  destruct (SFcompare_Eq _ _ E (FloatOps.Prim2SF 1)) as [<- _].
  destruct (SFcompare_Eq _ _ E (FloatOps.Prim2SF 25)) as [_ <-].
  reflexivity.
Qed.

(** Reading an array by a number: either some index compares equal to the
    number, and the element there is read, or none does, and the result is
    [undefined]. *)
Lemma Array_get_from_cases (arr : list JsValue) (x : float) :
  forall i,
  (exists j v,
     i <= j < i + Z.of_nat (List.length arr) /\
     PrimFloat.eqb (Number_of_Z j) x = true /\
     nth_error arr (Z.to_nat (j - i)) = Some v /\
     Array_get_from i arr x = v)
  \/ ((forall j, i <= j < i + Z.of_nat (List.length arr) ->
       PrimFloat.eqb (Number_of_Z j) x = false) /\
      Array_get_from i arr x = JUndefined).
Proof.
  induction arr as [|e rest IH]; intros i.
  - right. split; [simpl; lia | reflexivity].
  - simpl Array_get_from. destruct (PrimFloat.eqb (Number_of_Z i) x) eqn:E.
    + left. exists i, e. rewrite Z.sub_diag. simpl List.length. repeat split; try lia.
      exact E.
    + destruct (IH (i + 1)) as [(j & v & Hj & Hx & Hn & Hv)|[Hnone Hv]].
      * left. exists j, v. simpl List.length. repeat split; try lia; try assumption.
        replace (Z.to_nat (j - i)) with (S (Z.to_nat (j - (i + 1)))) by lia.
        exact Hn.
      * right. split; [|exact Hv]. intros j Hj. simpl List.length in Hj.
        destruct (Z.eq_dec j i) as [->|Hne]; [exact E | apply Hnone; lia].
Qed.

(** X3. In legacy-code mode, for every number in the range 1 .. 25, integer
    or not: either the number equals one of the integers 1 .. 25, and the
    instance has the registry name at that position and that integer as
    [code]; or it equals no position of the registry, and the instance has
    [name] [undefined] and [code] 0. *)
Theorem legacy_mode_on_numbers (host : Host) (x : float) (nameOrMessage : JsValue) :
  in_legacy_range (JNumber x) ->
  exists inst,
    new_DOMException host (JNumber x) nameOrMessage = Normal inst /\
    ((exists n k,
        1 <= n <= 25 /\
        PrimFloat.eqb (Number_of_Z n) x = true /\
        nameAt n = Some k /\
        Get inst "name" = JString k /\
        Get inst "code" = JNumber (Number_of_Z n))
     \/ ((forall n, 0 <= n <= 36 -> PrimFloat.eqb (Number_of_Z n) x = false) /\
         Get inst "name" = JUndefined /\
         Get inst "code" = JNumber 0)).
Proof.
  intros Hx. apply isValidDomExceptionCode_spec in Hx.
  eexists. split; [apply new_DOMException_legacy, Hx|].
  match goal with
  | |- context [capture host (mkObj None [(_, Data ?a _ _); (_, Data ?b _ _)] _) _] =>
      destruct (Get_fields_legacy host a b true true true true) as (-> & _ & ->)
  end.
  unfold Array_get.
  destruct (Array_get_from_cases DOMExceptionNames x 0)
    as [(j & v & Hj & Hjx & Hn & ->)|[Hnone ->]].
  - left. change (List.length DOMExceptionNames) with 37%nat in Hj.
    assert (1 <= j <= 25) as Hrange.
    { rewrite (isValidDomExceptionCode_eqb _ _ Hjx) in Hx.
      rewrite isValidDomExceptionCode_index in Hx by lia.
      apply andb_prop in Hx. destruct Hx as [H1 H2].
      apply Z.leb_le in H1, H2. lia. }
    destruct (Array_get_legacy j Hrange) as (k & Hat & _ & Hpos).
    assert (v = JString k) as ->.
    { rewrite Z.sub_0_r in Hn. unfold nameAt in Hat.
      destruct (j <? 0); [discriminate|].
      unfold DOMExceptionNames in Hn. fold KindRegistry in Hn.
      rewrite nth_error_map, Hat in Hn. now injection Hn as <-. }
    exists j, k. rewrite code_of_name_position. simpl. rewrite Hpos.
    repeat split; try lia; assumption.
  - right. split; [|split; [reflexivity | reflexivity]].
    intros n Hn. apply Hnone. change (List.length DOMExceptionNames) with 37%nat. lia.
Qed.

Lemma legacy_mode_on_numbers_witness :
  in_legacy_range (JNumber 1.5) /\
  exists inst,
    new_DOMException plain_host (JNumber 1.5) (JString "m") = Normal inst /\
    ((exists n k,
        1 <= n <= 25 /\
        PrimFloat.eqb (Number_of_Z n) 1.5 = true /\
        nameAt n = Some k /\
        Get inst "name" = JString k /\
        Get inst "code" = JNumber (Number_of_Z n))
     \/ ((forall n, 0 <= n <= 36 -> PrimFloat.eqb (Number_of_Z n) 1.5 = false) /\
         Get inst "name" = JUndefined /\
         Get inst "code" = JNumber 0)).
Proof.
  assert (in_legacy_range (JNumber 1.5)) as H
    by (apply isValidDomExceptionCode_spec; reflexivity).
  split; [exact H | apply (legacy_mode_on_numbers plain_host _ _ H)].
Defined.

(* ================================================================= *)
(** ** The suffix test *)

(** X4. [endsWithError] holds exactly of the strings that end in ["Error"]:
    it fails on every value that is no string and on every string shorter
    than the suffix, where [substring] is asked for a negative start and
    returns the whole string. *)
Theorem endsWithError_decides_suffix (value : JsValue) :
  (endsWithError value = true
   <-> exists prefix, value = JString (prefix ++ "Error")) /\
  (forall s, value = JString s -> (String.length s < 5)%nat ->
     String_substring s (Z.of_nat (String.length s) - 5) = s /\
     endsWithError value = false).
Proof.
  split.
  - rewrite endsWithError_spec. unfold error_suffixed, ends_with. split.
    + intros (s & -> & p & ->). now exists p.
    + intros (p & ->). exists (p ++ "Error"). split; [reflexivity | now exists p].
  - intros s -> Hlen. split.
    + unfold String_substring.
      rewrite Z.max_r, Z.min_l by lia. rewrite Z.sub_0_r, Nat2Z.id.
      apply substring_all.
    + apply endsWithError_false. intros (s' & [= <-] & p & ->).
      rewrite length_app in Hlen. simpl in Hlen. lia.
Qed.

(* ================================================================= *)
(** ** The two calling conventions *)

Lemma legacy_kind_position (c k : string) :
  In (c, k) legacy_kind ->
  exists n,
    1 <= n <= 25 /\
    member DOMException_statics c = JNumber (Number_of_Z n) /\
    nameAt n = Some k.
Proof.
  intros H. simpl in H.
  exists (positionOf k).
  repeat destruct H as [[= <- <-]|H]; try contradiction;
    (split; [split; apply Z.leb_le|split]); vm_compute; reflexivity.
Qed.

(** X5. The two calling conventions agree. For every legacy constant [c] of
    [DOMException], with kind [k], and every string [m],
    [new DOMException(DOMException.c, m)] and [new DOMException(m, k)] have
    the same [name] ([k]), the same [message] ([m]) and the same [code]
    (the constant). *)
Theorem calling_conventions_agree (host : Host) (c k m : string) :
  In (c, k) legacy_kind ->
  exists legacy modern,
    new_DOMException host (member DOMException_statics c) (JString m) = Normal legacy /\
    new_DOMException host (JString m) (JString k) = Normal modern /\
    Get legacy "name" = JString k /\
    Get modern "name" = JString k /\
    Get legacy "message" = JString m /\
    Get modern "message" = JString m /\
    Get legacy "code" = member DOMException_statics c /\
    Get modern "code" = member DOMException_statics c.
Proof.
  intros H. destruct (legacy_kind_position c k H) as (n & Hn & -> & Hat).
  destruct (Array_get_legacy n Hn) as (k' & Hat' & Hget & Hpos).
  rewrite Hat in Hat'. injection Hat' as <-.
  assert (isValidDomExceptionCode (JNumber (Number_of_Z n)) = true) as Hvalid.
  { rewrite isValidDomExceptionCode_index by lia.
    apply andb_true_intro. split; apply Z.leb_le; lia. }
  do 2 eexists.
  split; [apply new_DOMException_legacy, Hvalid|].
  split; [apply new_DOMException_name_message; reflexivity|].
  rewrite !Get_capture by discriminate.
  rewrite (registry_error_suffixed k)
    by (eapply In_positions_registry, nameAt_positions, Hat).
  split; [exact Hget|]. split; [reflexivity|].
  split; [exact (or_else_string m)|]. split; [reflexivity|].
  split.
  - change (code_of_name (Array_get DOMExceptionNames (JNumber (Number_of_Z n)))
            = JNumber (Number_of_Z n)).
    rewrite Hget, code_of_name_position. simpl. now rewrite Hpos.
  - change (code_of_name (JString k) = JNumber (Number_of_Z n)).
    rewrite code_of_name_position. simpl. now rewrite Hpos.
Qed.

Lemma calling_conventions_agree_witness :
  In ("HIERARCHY_REQUEST_ERR", "HierarchyRequestError") legacy_kind /\
  exists legacy modern,
    new_DOMException tracing_host (member DOMException_statics "HIERARCHY_REQUEST_ERR")
      (JString "optional message") = Normal legacy /\
    new_DOMException tracing_host (JString "optional message")
      (JString "HierarchyRequestError") = Normal modern /\
    Get legacy "name" = JString "HierarchyRequestError" /\
    Get modern "name" = JString "HierarchyRequestError" /\
    Get legacy "message" = JString "optional message" /\
    Get modern "message" = JString "optional message" /\
    Get legacy "code" = member DOMException_statics "HIERARCHY_REQUEST_ERR" /\
    Get modern "code" = member DOMException_statics "HIERARCHY_REQUEST_ERR".
Proof.
  assert (In ("HIERARCHY_REQUEST_ERR", "HierarchyRequestError") legacy_kind) as H
    by (simpl; tauto).
  split; [exact H | apply (calling_conventions_agree tracing_host _ _ _ H)].
Defined.

(* ================================================================= *)
(** ** What [extendError] sets up *)

(** X6. For each of the two constructors the module passes to [extendError]
    (its own functions, whose [prototype] can be replaced) and every
    [writableName]: an object created from [F.prototype] inherits [name]
    ([F.name]), [constructor] ([F]) and the empty [message] of
    [Error.prototype]; it is an instance of [F], of [Error] and of [Object].
    A strict-mode assignment to [constructor] always throws, and one to
    [name] succeeds, creating an own property, when [writableName] is truthy
    and throws when it is falsy or omitted. *)
Theorem extendError_inheritance (F : Fn) (writableName v : JsValue) :
  F = FDOMException \/ F = FParseError ->
  let o := Object_create (extendError F writableName) [] in
  Get o "name" = JString (Fn_name F) /\
  Get o "constructor" = JFunction F /\
  Get o "message" = JString "" /\
  instanceof o F = true /\
  instanceof o FError = true /\
  instanceof o FObject = true /\
  assign o "constructor" v = Throw (TypeError "constructor") /\
  assign o "name" v
  = if ToBoolean writableName
    then Normal (Object_create (extendError F writableName)
                   [("name", Data v true true)])
    else Throw (TypeError "name").
Proof.
  intros [-> | ->]; cbv zeta;
    (repeat (split; [reflexivity|]));
    unfold assign, Object_create, extendError; simpl;
    now destruct (ToBoolean writableName).
Qed.

Lemma extendError_inheritance_witness :
  (FParseError = FDOMException \/ FParseError = FParseError) /\
  let o := Object_create (extendError FParseError JUndefined) [] in
  Get o "name" = JString (Fn_name FParseError) /\
  Get o "constructor" = JFunction FParseError /\
  Get o "message" = JString "" /\
  instanceof o FParseError = true /\
  instanceof o FError = true /\
  instanceof o FObject = true /\
  assign o "constructor" (JString "x") = Throw (TypeError "constructor") /\
  assign o "name" (JString "x")
  = if ToBoolean JUndefined
    then Normal (Object_create (extendError FParseError JUndefined)
                   [("name", Data (JString "x") true true)])
    else Throw (TypeError "name").
Proof.
  assert (FParseError = FDOMException \/ FParseError = FParseError) as H
    by (right; reflexivity).
  split; [exact H | apply (extendError_inheritance _ JUndefined (JString "x") H)].
Defined.

(* ================================================================= *)
(** ** Writing to an instance *)

(** X7. On every instance of [DOMException], [name] can be assigned, and
    [code], computed on each read, follows it: after [e.name = v] the [code]
    is the registry position of [v] (0 for a value that is no coded name),
    while [message] is unchanged. [code] itself cannot be assigned: it has a
    getter only, so the strict-mode assignment throws. *)
Theorem code_follows_name (host : Host) (messageOrCode nameOrMessage v : JsValue) :
  exists e e',
    new_DOMException host messageOrCode nameOrMessage = Normal e /\
    assign e "name" v = Normal e' /\
    Get e' "name" = v /\
    Get e' "code" = JNumber (Number_of_Z (positionOf_value v)) /\
    0 <= positionOf_value v <= 25 /\
    Get e' "message" = Get e "message" /\
    assign e "code" v = Throw (TypeError "code") /\
    assign e' "code" v = Throw (TypeError "code").
Proof.
  rewrite <- code_of_name_position.
  destruct host as [[f|]];
    destruct (isValidDomExceptionCode messageOrCode) eqn:Hvalid;
    first [ rewrite (new_DOMException_legacy _ _ nameOrMessage Hvalid)
          | rewrite (new_DOMException_name_message _ _ nameOrMessage Hvalid) ];
    do 2 eexists; (split; [reflexivity|]); (split; [reflexivity|]);
    repeat split; apply positionOf_value_range.
Qed.

(** X8. On every instance of [ParseError], [name] reads ["ParseError"], from
    the prototype, whatever the arguments; it cannot be assigned, for
    [extendError(ParseError)] leaves it non-writable: the strict-mode
    assignment throws. [message] can be assigned, and [locator] is kept. The
    instance is an instance of [Error]. *)
Theorem ParseError_name_is_fixed (host : Host) (message locator v : JsValue) :
  exists signal signal',
    new_ParseError host message locator = Normal signal /\
    Get signal "name" = JString "ParseError" /\
    find_property signal "name" = Some (Data (JString "ParseError") false true) /\
    assoc "name" (own_properties signal) = None /\
    assign signal "name" v = Throw (TypeError "name") /\
    instanceof signal FError = true /\
    Get signal "constructor" = JFunction FParseError /\
    assign signal "message" v = Normal signal' /\
    Get signal' "message" = v /\
    Get signal' "locator" = locator.
Proof.
  destruct host as [[f|]]; rewrite new_ParseError_instance;
    do 2 eexists; (split; [reflexivity|]); repeat split.
Qed.

(** X9. The constructors used as plain functions on an existing object, as a
    subclass does with [DOMException.call(this, ...)]. On an instance of
    [ParseError] the body of [DOMException] always throws, in either mode,
    because it assigns [name]. On an instance of [DOMException] the body of
    [ParseError] succeeds: it replaces the message, adds the locator, and
    leaves [name] and [code] as they were. *)
Theorem constructors_as_functions
  (host : Host) (message locator messageOrCode nameOrMessage : JsValue) :
  exists signal exception both,
    new_ParseError host message locator = Normal signal /\
    new_DOMException host messageOrCode nameOrMessage = Normal exception /\
    DOMException host signal messageOrCode nameOrMessage = Throw (TypeError "name") /\
    ParseError host exception message locator = Normal both /\
    Get both "message" = message /\
    Get both "locator" = locator /\
    Get both "name" = Get exception "name" /\
    Get both "code" = Get exception "code" /\
    instanceof both FDOMException = true /\
    instanceof both FParseError = false.
Proof.
  destruct host as [[f|]];
    destruct (isValidDomExceptionCode messageOrCode) eqn:Hvalid;
    rewrite new_ParseError_instance;
    first [ rewrite (new_DOMException_legacy _ _ nameOrMessage Hvalid)
          | rewrite (new_DOMException_name_message _ _ nameOrMessage Hvalid) ];
    do 3 eexists; (split; [reflexivity|]); (split; [reflexivity|]);
    (split; [unfold DOMException; rewrite Hvalid; reflexivity|]);
    (split; [reflexivity|]); repeat split.
Qed.
